(** * Logger Hub client: a shallow embedding of
      [pr_agent/algo/logger_hub_client.py]

    The module builds a flat log record for one AI model call
    ([build_ai_log_data]), delivers a record with a single HTTP POST
    ([send_to_logger_hub]) and offers a synchronous entry point that
    picks a scheduling strategy ([log_ai_request_sync]).

    Python values are an inductive type, dictionaries are [gmap]s keyed
    by strings, and the effects of the module (settings lookup, debug
    logging, the wall clock, the HTTP transport, the asyncio scheduler,
    exceptions) are threaded through a small state-and-exception monad
    whose primitives stand for the library calls the source makes. *)

From Stdlib Require Import Floats.PrimFloat ZArith NArith.
From stdpp Require Import gmap strings list fin_maps pretty.

Set Warnings "-register-all".

Module LoggerHub.

Local Open Scope string_scope.

(** ** Python values *)

(** The values that flow through the module: [None], booleans, integers,
    floats (only ever stored, never computed with), strings, lists and
    string-keyed dictionaries. *)
Inductive pyval : Type :=
  | VNone
  | VBool (b : bool)
  | VInt (z : Z)
  | VFloat (f : float)
  | VStr (s : string)
  | VList (l : list pyval)
  | VDict (m : gmap string pyval).

(** [x is not None] *)
Definition is_not_none (v : pyval) : bool :=
  match v with
  | VNone => false
  | _ => true
  end.

(** Truthiness of a string, as tested by [not endpoint]. *)
Definition str_truthy (s : string) : bool :=
  match s with
  | EmptyString => false
  | String _ _ => true
  end.

(** ** Exceptions *)

(** The exception classes the module can meet, with Python's hierarchy:
    [asyncio.TimeoutError] is the builtin [TimeoutError], an [OSError];
    [aiohttp.ClientError], [RuntimeError] and [OSError] derive from
    [Exception]; [asyncio.CancelledError], [KeyboardInterrupt] and
    [GeneratorExit] (thrown into a coroutine that is closed while
    suspended) derive from [BaseException] only. *)
Inductive exn_class : Type :=
  | BaseException
  | Exception
  | RuntimeError
  | OSError
  | TimeoutError
  | ClientError
  | CancelledError
  | KeyboardInterrupt
  | GeneratorExit.

#[global] Instance exn_class_eq_dec : EqDecision exn_class.
Proof. solve_decision. Defined.

(** The direct base class. *)
Definition base_class (c : exn_class) : option exn_class :=
  match c with
  | BaseException => None
  | Exception | CancelledError | KeyboardInterrupt | GeneratorExit =>
      Some BaseException
  | RuntimeError | OSError | ClientError => Some Exception
  | TimeoutError => Some OSError
  end.

Fixpoint issubclass_upto (depth : nat) (c d : exn_class) : bool :=
  if decide (c = d) then true
  else match depth with
       | O => false
       | S depth' =>
           match base_class c with
           | Some b => issubclass_upto depth' b d
           | None => false
           end
       end.

(** [issubclass(c, d)]; the hierarchy above is three levels deep. *)
Definition issubclass (c d : exn_class) : bool := issubclass_upto 3 c d.

(** A raised exception: its class and [str(e)]. *)
Record exn : Type := mk_exn { exn_cls : exn_class; exn_msg : string }.

(** [isinstance(e, c)], the test an [except c] clause performs. *)
Definition isinstance (e : exn) (c : exn_class) : bool :=
  issubclass (exn_cls e) c.

(** How a call ends: with a value or with a raised exception. *)
Inductive outcome (A : Type) : Type :=
  | Return (a : A)
  | Raise (e : exn).
Arguments Return {A} a.
Arguments Raise {A} e.

(** ** The outside world *)

(** An HTTP request as [session.post] receives it. *)
Record request : Type := mk_request {
  req_method : string;
  req_url : string;
  req_json : pyval;
  req_headers : gmap string string;
  req_timeout : N  (* ClientTimeout(total=...), in seconds *)
}.

(** What the remote side does with a request: answer with a status code
    after some delay (milliseconds), never answer, or fail with an
    exception (connection refused, DNS failure, cancellation, ...). *)
Inductive net_outcome : Type :=
  | Responds (delay_ms : N) (status : Z)
  | NeverResponds
  | Fails (e : exn).

(** A coroutine object awaiting execution.  The module only ever creates
    coroutines of [send_to_logger_hub]. *)
Inductive coroutine : Type :=
  | SendToLoggerHub (collection : string) (data : gmap string pyval).

(** The event loop object returned by [asyncio.get_event_loop()]. *)
Record loop : Type := mk_loop { is_running : bool }.

(** The environment of one call: configuration, the wall clock read by
    [time.time()], the behaviour of the remote endpoint (which may depend
    on the requests issued so far) and the behaviour of the asyncio
    scheduler in the calling context.  The three fault fields say whether
    the corresponding asyncio call raises instead of doing its work;
    [loop_stop] says whether the loop driven by [run_until_complete] is
    stopped while the coroutine waits for the network, and with which
    exception [run_until_complete] then ends. *)
Record env : Type := mk_env {
  settings : gmap string string;
  wall_clock : float;
  transport : list request -> request -> net_outcome;
  event_loop : outcome loop;
  create_task_fault : option exn;
  run_until_complete_fault : option exn;
  asyncio_run_fault : option exn;
  loop_stop : option exn
}.

(** The observable state: requests handed to the HTTP client, debug
    diagnostics written, tasks handed to the running scheduler and not
    yet started, and the time the exchanges made were specified to take
    (an answer's delay, or the timeout; milliseconds).  Scheduling
    overhead around an exchange is not counted. *)
Record world : Type := mk_world {
  sent : list request;
  debug_log : list string;
  pending : list coroutine;
  elapsed_ms : N
}.

Definition log_debug (msg : string) (w : world) : world :=
  mk_world (sent w) (debug_log w ++ [msg]) (pending w) (elapsed_ms w).

Definition put_on_wire (r : request) (w : world) : world :=
  mk_world (sent w ++ [r]) (debug_log w) (pending w) (elapsed_ms w).

Definition wait_ms (d : N) (w : world) : world :=
  mk_world (sent w) (debug_log w) (pending w) (elapsed_ms w + d)%N.

Definition enqueue (c : coroutine) (w : world) : world :=
  mk_world (sent w) (debug_log w) (pending w ++ [c]) (elapsed_ms w).

(** ** The effect monad *)

Definition M (A : Type) : Type := env -> world -> outcome A * world.

#[global] Instance M_ret : MRet M :=
  fun A (a : A) _ w => (Return a, w).

#[global] Instance M_bind : MBind M :=
  fun A B (k : A -> M B) (m : M A) e w =>
    match m e w with
    | (Return a, w') => k a e w'
    | (Raise ex, w') => (Raise ex, w')
    end.

(** The first [except] clause whose class matches the exception. *)
Fixpoint find_handler {A : Type} (ex : exn)
    (handlers : list (exn_class * (exn -> M A))) : option (exn -> M A) :=
  match handlers with
  | [] => None
  | (c, h) :: rest => if isinstance ex c then Some h else find_handler ex rest
  end.

(** [try: body  except c1 as e: h1  except c2 as e: h2 ...].  An
    exception raised by the body is given to the first matching clause;
    what that clause raises is not offered to its siblings. *)
Definition try_except {A : Type} (body : M A)
    (handlers : list (exn_class * (exn -> M A))) : M A :=
  fun e w =>
    match body e w with
    | (Return a, w') => (Return a, w')
    | (Raise ex, w') =>
        match find_handler ex handlers with
        | Some h => h ex e w'
        | None => (Raise ex, w')
        end
    end.

(** ** Library calls made by the module *)

(** The settings object, the logger, the clock, aiohttp and asyncio are
    not part of the module; each call into them is a primitive of the
    monad.  The settings lookup, the debug logger and the clock always
    return.  The HTTP client and the scheduler may raise, as the
    environment dictates. *)

(** [get_settings().get(key, default)] *)
Definition settings_get (key dflt : string) : M string :=
  fun e w => (Return (default dflt (settings e !! key)), w).

(** [get_logger().debug(msg)] *)
Definition debug (msg : string) : M unit :=
  fun _ w => (Return tt, log_debug msg w).

(** [time.time()] *)
Definition time_time : M float :=
  fun e w => (Return (wall_clock e), w).

(** What one request bounded by a total timeout yields, and how long it
    takes: the status code if the answer arrives in time, otherwise
    [asyncio.TimeoutError] once the timeout has elapsed. *)
Definition http_exchange (e : env) (history : list request) (r : request)
    : outcome Z * N :=
  let limit := (req_timeout r * 1000)%N in
  match transport e history r with
  | Responds d status =>
      if (d <=? limit)%N then (Return status, d)
      else (Raise (mk_exn TimeoutError ""), limit)
  | NeverResponds => (Raise (mk_exn TimeoutError ""), limit)
  | Fails ex => (Raise ex, 0%N)
  end.

(** [async with aiohttp.ClientSession() as session:
       async with session.post(url, json=..., headers=..., timeout=...)
       as response: ... response.status] *)
Definition session_post (url : string) (json : pyval)
    (headers : gmap string string) (timeout : N) : M Z :=
  fun e w =>
    let r := mk_request "POST" url json headers timeout in
    let '(res, d) := http_exchange e (sent w) r in
    (res, wait_ms d (put_on_wire r w)).

(** ** build_ai_log_data *)

(** The arguments of one call of [build_ai_log_data].  The three leading
    parameters are required; for every other parameter [None] means the
    caller left it out, so that the default of the signature applies.
    Argument content is not constrained: any value may be passed. *)
Record call_args : Type := mk_call_args {
  arg_model : pyval;
  arg_system_prompt : pyval;
  arg_user_prompt : pyval;
  arg_response : option pyval;
  arg_finish_reason : option pyval;
  arg_usage : option pyval;
  arg_status : option pyval;
  arg_error : option pyval;
  arg_latency_ms : option pyval;
  arg_pr_url : option pyval;
  arg_command : option pyval;
  arg_extra : option pyval
}.

(** [if x is not None: data[key] = x] *)
Definition set_if_not_none (key : string) (x : pyval)
    (data : gmap string pyval) : gmap string pyval :=
  if is_not_none x then <[key := x]> data else data.

Definition build_ai_log_data (c : call_args) : M (gmap string pyval) :=
  let model := arg_model c in
  let system_prompt := arg_system_prompt c in
  let user_prompt := arg_user_prompt c in
  let response := default VNone (arg_response c) in
  let finish_reason := default VNone (arg_finish_reason c) in
  let usage := default VNone (arg_usage c) in
  let status := default (VStr "success") (arg_status c) in
  let error := default VNone (arg_error c) in
  let latency_ms := default VNone (arg_latency_ms c) in
  let pr_url := default VNone (arg_pr_url c) in
  let command := default VNone (arg_command c) in
  let extra := default VNone (arg_extra c) in
  now ← time_time;
  let data : gmap string pyval :=
    <["timestamp" := VFloat now]>
      (<["status" := status]>
        (<["user_prompt" := user_prompt]>
          (<["system_prompt" := system_prompt]>
            (<["model" := model]> ∅)))) in
  let data := set_if_not_none "response" response data in
  let data := set_if_not_none "finish_reason" finish_reason data in
  let data := set_if_not_none "usage" usage data in
  let data := set_if_not_none "error" error data in
  let data := set_if_not_none "latency_ms" latency_ms data in
  let data := set_if_not_none "pr_url" pr_url data in
  let data := set_if_not_none "command" command data in
  let data := set_if_not_none "extra" extra data in
  mret data.

(** ** send_to_logger_hub *)

Definition LOGGER_HUB_TIMEOUT : N := 5.  (* seconds *)

Definition send_to_logger_hub (collection : string)
    (data : gmap string pyval) : M bool :=
  endpoint ← settings_get "LOGGER_HUB.ENDPOINT" "";
  api_key ← settings_get "LOGGER_HUB.API_KEY" "";
  if negb (str_truthy endpoint) || negb (str_truthy api_key) then
    debug "Logger Hub not configured, skipping log";;
    mret false
  else
    try_except
      (status ← session_post
                  (endpoint +:+ "/log")
                  (VDict (<["data" := VDict data]>
                            (<["collection" := VStr collection]> ∅)))
                  (<["x-api-key" := api_key]>
                     (<["Content-Type" := "application/json"]> ∅))
                  LOGGER_HUB_TIMEOUT;
       if (status =? 200)%Z then
         debug ("Logger Hub: sent log to collection '" +:+ collection +:+ "'");;
         mret true
       else
         debug ("Logger Hub: failed with status " +:+ pretty status);;
         mret false)
      [ (TimeoutError, fun _ =>
           debug "Logger Hub: request timed out";;
           mret false);
        (Exception, fun ex =>
           debug ("Logger Hub: send failed - " +:+ exn_msg ex);;
           mret false) ].

(** ** log_ai_request_sync *)

(** Driving a coroutine to completion. *)
Definition run_coroutine (c : coroutine) : M bool :=
  match c with
  | SendToLoggerHub collection data => send_to_logger_hub collection data
  end.

(** [asyncio.get_event_loop()] *)
Definition get_event_loop : M loop :=
  fun e w => (event_loop e, w).

(** [asyncio.create_task(coro)]: the task is handed to the running
    scheduler and starts only after the caller gives control back. *)
Definition create_task (c : coroutine) : M unit :=
  fun e w =>
    match create_task_fault e with
    | Some ex => (Raise ex, w)
    | None => (Return tt, enqueue c w)
    end.

(** The environment as seen by a coroutine whose loop is stopped while
    it waits for the network: the answer never reaches it, and the
    abandoned coroutine is closed where it waits. *)
Definition abandoned_at_await (e : env) : env :=
  {| settings := settings e;
     wall_clock := wall_clock e;
     transport := fun _ _ => Fails (mk_exn GeneratorExit "");
     event_loop := event_loop e;
     create_task_fault := create_task_fault e;
     run_until_complete_fault := run_until_complete_fault e;
     asyncio_run_fault := asyncio_run_fault e;
     loop_stop := loop_stop e |}.

(** [loop.run_until_complete(coro)].  The call may refuse to start (the
    loop is closed, or already running).  Otherwise it drives the
    coroutine.  If the loop is stopped while the coroutine waits for the
    network, the coroutine is left where it is, with its request handed
    over and nothing logged, and the call raises ("Event loop stopped
    before Future completed"); a coroutine that ends without waiting is
    not affected.  The time waited before the stop is not counted. *)
Definition run_until_complete (c : coroutine) : M bool :=
  fun e w =>
    match run_until_complete_fault e with
    | Some ex => (Raise ex, w)
    | None =>
        match loop_stop e with
        | None => run_coroutine c e w
        | Some ex =>
            match run_coroutine c (abandoned_at_await e) w with
            | (Return b, w') => (Return b, w')
            | (Raise _, w') => (Raise ex, w')
            end
        end
    end.

(** [asyncio.run(coro)] *)
Definition asyncio_run (c : coroutine) : M bool :=
  fun e w =>
    match asyncio_run_fault e with
    | Some ex => (Raise ex, w)
    | None => run_coroutine c e w
    end.

Definition log_ai_request_sync (collection : string)
    (data : gmap string pyval) : M unit :=
  try_except
    (lp ← get_event_loop;
     if is_running lp then
       create_task (SendToLoggerHub collection data)
     else
       run_until_complete (SendToLoggerHub collection data);;
       mret tt)
    [ (RuntimeError, fun _ =>
         asyncio_run (SendToLoggerHub collection data);;
         mret tt);
      (Exception, fun ex =>
         debug ("Logger Hub: sync wrapper failed - " +:+ exn_msg ex)) ].

(** * Vocabulary of the statements *)

(** An optional argument was supplied as non-null: the caller passed it,
    and passed something other than [None]. *)
Definition supplied (o : option pyval) : Prop :=
  ∃ v, o = Some v ∧ v ≠ VNone.

(** The call [build_ai_log_data("gpt-4", "sys", "usr", response="ok",
    status="success")]. *)
Definition example_call : call_args :=
  {| arg_model := VStr "gpt-4";
     arg_system_prompt := VStr "sys";
     arg_user_prompt := VStr "usr";
     arg_response := Some (VStr "ok");
     arg_finish_reason := None;
     arg_usage := None;
     arg_status := Some (VStr "success");
     arg_error := None;
     arg_latency_ms := None;
     arg_pr_url := None;
     arg_command := None;
     arg_extra := None |}.

(** The two settings as the delivery function reads them. *)
Definition endpoint_of (e : env) : string :=
  default "" (settings e !! "LOGGER_HUB.ENDPOINT").

Definition api_key_of (e : env) : string :=
  default "" (settings e !! "LOGGER_HUB.API_KEY").

(** Both settings are present and non-empty. *)
Definition configured (e : env) : bool :=
  str_truthy (endpoint_of e) && str_truthy (api_key_of e).

(** A setting is empty or missing. *)
Definition setting_absent (e : env) (key : string) : Prop :=
  settings e !! key = None ∨ settings e !! key = Some "".

(** The request object the delivery function hands to [session.post]. *)
Definition hub_request (e : env) (collection : string)
    (data : gmap string pyval) : request :=
  mk_request "POST" (endpoint_of e +:+ "/log")
    (VDict (<["data" := VDict data]> (<["collection" := VStr collection]> ∅)))
    (<["x-api-key" := api_key_of e]>
       (<["Content-Type" := "application/json"]> ∅))
    LOGGER_HUB_TIMEOUT.

(** The world once the request has been put on the wire and the
    exchange has taken [d] milliseconds. *)
Definition after_exchange (r : request) (d : N) (w : world) : world :=
  wait_ms d (put_on_wire r w).

(** Every failure of the transport is an error, that is an instance of
    [Exception]; cancellation and interpreter shutdown are not. *)
Definition transport_errors_only (e : env) : Prop :=
  ∀ history r ex, transport e history r = Fails ex ->
                  isinstance ex Exception = true.

(** The requests issued between two worlds. *)
Definition issued_between (w w' : world) : list request :=
  drop (length (sent w)) (sent w').


(** No scheduler is active: there is a current event loop, it is not
    running, and it can be driven to the end from the calling context
    ([run_until_complete] does not raise). *)
Definition idle_scheduler (e : env) : Prop :=
  ∃ lp, event_loop e = Return lp ∧ is_running lp = false
        ∧ run_until_complete_fault e = None
        ∧ loop_stop e = None.

(** Acquiring the scheduler fails with a [RuntimeError], which sends the
    wrapper to its fallback [asyncio.run]. *)
Definition scheduler_unavailable (e : env) : Prop :=
  ∃ ex, event_loop e = Raise ex ∧ isinstance ex RuntimeError = true.

(** ** Sample calling contexts *)

Definition hub_settings : gmap string string :=
  <["LOGGER_HUB.API_KEY" := "secret"]>
    (<["LOGGER_HUB.ENDPOINT" := "http://hub.local"]> ∅).

(** A synchronous caller (a current event loop exists and is idle) and
    a collector that answers 200 after 120 ms. *)
Definition env_idle : env :=
  {| settings := hub_settings;
     wall_clock := 1730000000%float;
     transport := fun _ _ => Responds 120 200;
     event_loop := Return (mk_loop false);
     create_task_fault := None;
     run_until_complete_fault := None;
     asyncio_run_fault := None;
     loop_stop := None |}.

(** A caller running inside the event loop. *)
Definition env_running : env :=
  {| settings := hub_settings;
     wall_clock := 1730000000%float;
     transport := fun _ _ => Responds 120 200;
     event_loop := Return (mk_loop true);
     create_task_fault := None;
     run_until_complete_fault := None;
     asyncio_run_fault := None;
     loop_stop := None |}.

(** A collector that accepts the connection and never answers. *)
Definition env_silent : env :=
  {| settings := hub_settings;
     wall_clock := 1730000000%float;
     transport := fun _ _ => NeverResponds;
     event_loop := Return (mk_loop false);
     create_task_fault := None;
     run_until_complete_fault := None;
     asyncio_run_fault := None;
     loop_stop := None |}.

(** A collector that refuses the connection. *)
Definition env_refused : env :=
  {| settings := hub_settings;
     wall_clock := 1730000000%float;
     transport := fun _ _ =>
       Fails (mk_exn ClientError "Cannot connect to host hub.local");
     event_loop := Return (mk_loop false);
     create_task_fault := None;
     run_until_complete_fault := None;
     asyncio_run_fault := None;
     loop_stop := None |}.

(** No Logger Hub section in the settings. *)
Definition env_unconfigured : env :=
  {| settings := ∅;
     wall_clock := 1730000000%float;
     transport := fun _ _ => Responds 120 200;
     event_loop := Return (mk_loop false);
     create_task_fault := None;
     run_until_complete_fault := None;
     asyncio_run_fault := None;
     loop_stop := None |}.

(** A calling context in which scheduler acquisition fails (no current
    event loop in this thread) and the fallback [asyncio.run] cannot
    create a loop of its own. *)
Definition env_fallback_fails : env :=
  {| settings := hub_settings;
     wall_clock := 1730000000%float;
     transport := fun _ _ => Responds 120 200;
     event_loop :=
       Raise (mk_exn RuntimeError "There is no current event loop");
     create_task_fault := None;
     run_until_complete_fault := None;
     asyncio_run_fault :=
       Some (mk_exn OSError "[Errno 24] Too many open files");
     loop_stop := None |}.

(** Nothing has happened yet. *)
Definition world_init : world :=
  {| sent := []; debug_log := []; pending := []; elapsed_ms := 0 |}.

(** An earlier call has already waited and left a diagnostic. *)
Definition world_busy : world :=
  {| sent := [];
     debug_log := ["Logger Hub not configured, skipping log"];
     pending := [];
     elapsed_ms := 40 |}.

Definition sample_record : gmap string pyval :=
  <["status" := VStr "success"]> (<["model" := VStr "gpt-4"]> ∅).

(** A call that names the three prompts and nothing else. *)
Definition minimal_call : call_args :=
  {| arg_model := VStr "gpt-4";
     arg_system_prompt := VStr "sys";
     arg_user_prompt := VStr "usr";
     arg_response := None;
     arg_finish_reason := None;
     arg_usage := None;
     arg_status := None;
     arg_error := None;
     arg_latency_ms := None;
     arg_pr_url := None;
     arg_command := None;
     arg_extra := None |}.

(** ** Vocabulary of the further properties *)

(** What ends up under an optional key: the value the caller passed,
    unless the argument was left out or passed as [None]. *)
Definition stored (o : option pyval) : option pyval :=
  match o with
  | Some v => if is_not_none v then Some v else None
  | None => None
  end.

(** An explicit [None] turned into an omitted argument. *)
Definition drop_null (o : option pyval) : option pyval :=
  match o with
  | Some VNone => None
  | _ => o
  end.

(** The same call with every optional argument that was passed as
    [None] left out instead; [status] is not touched. *)
Definition omit_nulls (c : call_args) : call_args :=
  {| arg_model := arg_model c;
     arg_system_prompt := arg_system_prompt c;
     arg_user_prompt := arg_user_prompt c;
     arg_response := drop_null (arg_response c);
     arg_finish_reason := drop_null (arg_finish_reason c);
     arg_usage := drop_null (arg_usage c);
     arg_status := arg_status c;
     arg_error := drop_null (arg_error c);
     arg_latency_ms := drop_null (arg_latency_ms c);
     arg_pr_url := drop_null (arg_pr_url c);
     arg_command := drop_null (arg_command c);
     arg_extra := drop_null (arg_extra c) |}.

(** The names a log record can carry. *)
Definition record_keys : gset string :=
  {[ "model"; "system_prompt"; "user_prompt"; "status"; "timestamp";
     "response"; "finish_reason"; "usage"; "error"; "latency_ms";
     "pr_url"; "command"; "extra" ]}.

(** Whether the loop handed out by [asyncio.get_event_loop()] is
    running. *)
Definition loop_running (e : env) : bool :=
  match event_loop e with
  | Return lp => is_running lp
  | Raise _ => false
  end.

(** The exception, if any, with which the scheduler stops the wrapper's
    [try] body before the delivery has started: raised by
    [get_event_loop], by [create_task] under a running loop, or by
    [run_until_complete] under an idle one. *)
Definition scheduler_fault (e : env) : option exn :=
  match event_loop e with
  | Raise ex => Some ex
  | Return lp =>
      if is_running lp then create_task_fault e
      else run_until_complete_fault e
  end.

(** A call's result with the value discarded, as the wrapper does with
    the delivery's. *)
Definition discard {A : Type} (r : outcome A * world) : outcome unit * world :=
  match r with
  | (Return _, w') => (Return tt, w')
  | (Raise ex, w') => (Raise ex, w')
  end.

(** ** Further calling contexts *)

(** A collector that answers 500 after 80 ms. *)
Definition env_server_error : env :=
  {| settings := hub_settings;
     wall_clock := 1730000000%float;
     transport := fun _ _ => Responds 80 500;
     event_loop := Return (mk_loop false);
     create_task_fault := None;
     run_until_complete_fault := None;
     asyncio_run_fault := None;
     loop_stop := None |}.

(** The task running the delivery is cancelled while it waits. *)
Definition env_cancelled : env :=
  {| settings := hub_settings;
     wall_clock := 1730000000%float;
     transport := fun _ _ => Fails (mk_exn CancelledError "");
     event_loop := Return (mk_loop false);
     create_task_fault := None;
     run_until_complete_fault := None;
     asyncio_run_fault := None;
     loop_stop := None |}.

(** The current event loop has been closed: it cannot be driven any
    more, but [asyncio.run] can still make a loop of its own. *)
Definition env_closed_loop : env :=
  {| settings := hub_settings;
     wall_clock := 1730000000%float;
     transport := fun _ _ => Responds 120 200;
     event_loop := Return (mk_loop false);
     create_task_fault := None;
     run_until_complete_fault :=
       Some (mk_exn RuntimeError "Event loop is closed");
     asyncio_run_fault := None;
     loop_stop := None |}.



(** A caller inside the event loop, without Logger Hub settings. *)
Definition env_running_unconfigured : env :=
  {| settings := ∅;
     wall_clock := 1730000000%float;
     transport := fun _ _ => Responds 120 200;
     event_loop := Return (mk_loop true);
     create_task_fault := None;
     run_until_complete_fault := None;
     asyncio_run_fault := None;
     loop_stop := None |}.

(** A call that passes [None] explicitly for two optional arguments. *)
Definition null_call : call_args :=
  {| arg_model := VStr "gpt-4";
     arg_system_prompt := VStr "sys";
     arg_user_prompt := VStr "usr";
     arg_response := Some (VStr "ok");
     arg_finish_reason := Some VNone;
     arg_usage := None;
     arg_status := Some (VStr "error");
     arg_error := Some VNone;
     arg_latency_ms := Some (VInt 1200);
     arg_pr_url := None;
     arg_command := None;
     arg_extra := None |}.

(** ** Calling contexts of the wrapper *)

(** What the two [except] clauses of the wrapper do with an exception
    of the [try] body: [asyncio.run] of the delivery for a
    [RuntimeError], one diagnostic for any other [Exception], and
    nothing for the rest, which goes on to the caller. *)
Definition except_path (collection : string) (data : gmap string pyval)
    (ex : exn) : M unit :=
  fun e w =>
    if isinstance ex RuntimeError then
      discard (asyncio_run (SendToLoggerHub collection data) e w)
    else if isinstance ex Exception then
      (Return tt,
       log_debug ("Logger Hub: sync wrapper failed - " +:+ exn_msg ex) w)
    else (Raise ex, w).





(** The idle loop is stopped while the delivery waits for the answer. *)
Definition env_loop_stopped : env :=
  {| settings := hub_settings;
     wall_clock := 1730000000%float;
     transport := fun _ _ => Responds 120 200;
     event_loop := Return (mk_loop false);
     create_task_fault := None;
     run_until_complete_fault := None;
     asyncio_run_fault := None;
     loop_stop :=
       Some (mk_exn RuntimeError
               "Event loop stopped before Future completed.") |}.

(** * Properties *)

(** ** The effect monad *)

Lemma bind_return {A B : Type} (m : M A) (k : A -> M B) e w a w' :
  m e w = (Return a, w') -> (m ≫= k) e w = k a e w'.
Proof. intros Hm. unfold mbind, M_bind. by rewrite Hm. Qed.

Lemma bind_raise {A B : Type} (m : M A) (k : A -> M B) e w ex w' :
  m e w = (Raise ex, w') -> (m ≫= k) e w = (Raise ex, w').
Proof. intros Hm. unfold mbind, M_bind. by rewrite Hm. Qed.

Lemma try_except_return {A : Type} (body : M A) hs e w a w' :
  body e w = (Return a, w') -> try_except body hs e w = (Return a, w').
Proof. intros Hb. unfold try_except. by rewrite Hb. Qed.

Lemma try_except_caught {A : Type} (body : M A) hs e w ex w' h :
  body e w = (Raise ex, w') ->
  find_handler ex hs = Some h ->
  try_except body hs e w = h ex e w'.
Proof. intros Hb Hh. unfold try_except. by rewrite Hb, Hh. Qed.

Lemma try_except_uncaught {A : Type} (body : M A) hs e w ex w' :
  body e w = (Raise ex, w') ->
  find_handler ex hs = None ->
  try_except body hs e w = (Raise ex, w').
Proof. intros Hb Hh. unfold try_except. by rewrite Hb, Hh. Qed.

(** ** The exception hierarchy *)

Lemma issubclass_refl c : issubclass c c = true.
Proof. by destruct c. Qed.

Lemma timeout_is_exception : issubclass TimeoutError Exception = true.
Proof. reflexivity. Qed.

Lemma runtime_error_is_exception c :
  issubclass c RuntimeError = true -> issubclass c Exception = true.
Proof. by destruct c. Qed.

Lemma issubclass_trans c d d' :
  issubclass c d = true -> issubclass d d' = true -> issubclass c d' = true.
Proof. by destruct c, d, d'. Qed.

(** ** build_ai_log_data *)

Lemma is_not_none_true v : is_not_none v = true ↔ v ≠ VNone.
Proof. destruct v; simpl; split; congruence. Qed.

Lemma is_not_none_default o : is_not_none (default VNone o) = true ↔ supplied o.
Proof.
  unfold supplied. destruct o as [v|]; simpl.
  - rewrite is_not_none_true. split.
    + intros Hv. by exists v.
    + intros (v' & [= <-] & Hv). done.
  - split; [done | by intros (v & ? & _)].
Qed.

Lemma lookup_set_if_not_none_ne key x (data : gmap string pyval) key' :
  key ≠ key' -> set_if_not_none key x data !! key' = data !! key'.
Proof.
  intros Hne. unfold set_if_not_none.
  destruct (is_not_none x); [by rewrite lookup_insert_ne | done].
Qed.

Lemma lookup_set_if_not_none_eq key x (data : gmap string pyval) :
  set_if_not_none key x data !! key
  = if is_not_none x then Some x else data !! key.
Proof.
  unfold set_if_not_none.
  destruct (is_not_none x); [by rewrite lookup_insert_eq | done].
Qed.

(** An optional key that the initial literal does not carry is present
    exactly when its guard fired. *)
Lemma set_if_not_none_fresh key o (data : gmap string pyval) :
  data !! key = None ->
  is_Some (set_if_not_none key (default VNone o) data !! key) ↔ supplied o.
Proof.
  intros Hfresh. rewrite lookup_set_if_not_none_eq, Hfresh.
  rewrite <- is_not_none_default.
  destruct (is_not_none (default VNone o)); split; intros H; try done.
Qed.

(** Looking a key up through the eight guarded assignments: guards for
    other keys are skipped. *)
Ltac skip_guards :=
  repeat (rewrite lookup_set_if_not_none_ne by done).

(** Running the builder: one clock read, then pure dictionary code. *)
Ltac run_builder :=
  eexists; split;
  [ unfold build_ai_log_data, time_time, mbind, M_bind, mret, M_ret;
    reflexivity
  | ].

(** The five entries of the initial literal, with their values, survive
    the guarded assignments. *)
Lemma build_ai_log_data_required c e w :
  ∃ data, build_ai_log_data c e w = (Return data, w)
    ∧ data !! "model" = Some (arg_model c)
    ∧ data !! "system_prompt" = Some (arg_system_prompt c)
    ∧ data !! "user_prompt" = Some (arg_user_prompt c)
    ∧ data !! "status" = Some (default (VStr "success") (arg_status c))
    ∧ data !! "timestamp" = Some (VFloat (wall_clock e)).
Proof.
  run_builder.
  repeat split; skip_guards; reflexivity.
Qed.

(** C3: for every choice of arguments the record returned by
    [build_ai_log_data] has the keys model, system_prompt, user_prompt,
    status and timestamp, and each of the optional keys response,
    finish_reason, usage, error, latency_ms, pr_url, command and extra is
    present if and only if its argument was supplied as non-null. *)
Theorem build_ai_log_data_keys c e w :
  ∃ data, build_ai_log_data c e w = (Return data, w)
    ∧ "model" ∈ dom data
    ∧ "system_prompt" ∈ dom data
    ∧ "user_prompt" ∈ dom data
    ∧ "status" ∈ dom data
    ∧ "timestamp" ∈ dom data
    ∧ ("response" ∈ dom data ↔ supplied (arg_response c))
    ∧ ("finish_reason" ∈ dom data ↔ supplied (arg_finish_reason c))
    ∧ ("usage" ∈ dom data ↔ supplied (arg_usage c))
    ∧ ("error" ∈ dom data ↔ supplied (arg_error c))
    ∧ ("latency_ms" ∈ dom data ↔ supplied (arg_latency_ms c))
    ∧ ("pr_url" ∈ dom data ↔ supplied (arg_pr_url c))
    ∧ ("command" ∈ dom data ↔ supplied (arg_command c))
    ∧ ("extra" ∈ dom data ↔ supplied (arg_extra c)).
Proof.
  run_builder.
  repeat split; try (intros Hin); rewrite ?elem_of_dom in *.
  all: skip_guards.
  all: try (eexists; reflexivity).
  all: try (apply set_if_not_none_fresh; skip_guards; reflexivity).
  all: revert Hin; skip_guards; apply set_if_not_none_fresh;
       skip_guards; reflexivity.
Qed.

(** C6: [build_ai_log_data("gpt-4", "sys", "usr", response="ok",
    status="success")] returns a record whose key set is exactly
    {model, system_prompt, user_prompt, status, timestamp, response},
    with status "success" and response "ok". *)
Theorem build_ai_log_data_example e w :
  ∃ data, build_ai_log_data example_call e w = (Return data, w)
    ∧ dom data = {[ "model"; "system_prompt"; "user_prompt";
                    "status"; "timestamp"; "response" ]}
    ∧ data !! "status" = Some (VStr "success")
    ∧ data !! "response" = Some (VStr "ok").
Proof.
  run_builder.
  cbn [example_call arg_model arg_system_prompt arg_user_prompt arg_response
       arg_finish_reason arg_usage arg_status arg_error arg_latency_ms
       arg_pr_url arg_command arg_extra default from_option id].
  unfold set_if_not_none. cbn [is_not_none].
  split; [| split].
  - rewrite !dom_insert_L, dom_empty_L. set_solver.
  - repeat (rewrite lookup_insert_ne by done). by rewrite lookup_insert_eq.
  - by rewrite lookup_insert_eq.
Qed.

(** C9: [build_ai_log_data] is pure and deterministic up to the clock:
    whatever the arguments, the configuration, the scheduler and the
    state of the world, the call returns a record and leaves the world as
    it found it, and two calls with the same arguments and the same clock
    reading return equal records. *)
Theorem build_ai_log_data_pure c e1 w1 e2 w2 :
  wall_clock e1 = wall_clock e2 ->
  ∃ data, build_ai_log_data c e1 w1 = (Return data, w1)
        ∧ build_ai_log_data c e2 w2 = (Return data, w2).
Proof.
  intros Hclock. run_builder.
  unfold build_ai_log_data, time_time, mbind, M_bind, mret, M_ret.
  by rewrite Hclock.
Qed.

Lemma build_ai_log_data_pure_witness :
  wall_clock env_idle = wall_clock env_running
  ∧ ∃ data,
      build_ai_log_data example_call env_idle world_init
      = (Return data, world_init)
      ∧ build_ai_log_data example_call env_running world_busy
        = (Return data, world_busy).
Proof.
  split; [reflexivity |].
  apply (build_ai_log_data_pure example_call env_idle world_init
           env_running world_busy).
  reflexivity.
Defined.

(** C10: when the caller leaves the status argument out, the status
    field of the returned record is "success". *)
Theorem build_ai_log_data_default_status c e w :
  arg_status c = None ->
  ∃ data, build_ai_log_data c e w = (Return data, w)
        ∧ data !! "status" = Some (VStr "success").
Proof.
  intros Hstatus.
  destruct (build_ai_log_data_required c e w)
    as (data & Hrun & _ & _ & _ & Hst & _).
  exists data. split; [done |]. by rewrite Hst, Hstatus.
Qed.

Lemma build_ai_log_data_default_status_witness :
  arg_status minimal_call = None
  ∧ ∃ data,
      build_ai_log_data minimal_call env_idle world_init
      = (Return data, world_init)
      ∧ data !! "status" = Some (VStr "success").
Proof.
  split; [reflexivity |].
  apply (build_ai_log_data_default_status minimal_call env_idle world_init).
  reflexivity.
Defined.

(** ** send_to_logger_hub *)

Lemma setting_absent_falsy e key :
  setting_absent e key -> str_truthy (default "" (settings e !! key)) = false.
Proof. by intros [-> | ->]. Qed.

Lemma send_to_logger_hub_skip e w collection data :
  configured e = false ->
  send_to_logger_hub collection data e w
  = (Return false, log_debug "Logger Hub not configured, skipping log" w).
Proof.
  unfold configured, endpoint_of, api_key_of. intros Hcfg.
  unfold send_to_logger_hub, settings_get, mbind, M_bind.
  apply andb_false_iff in Hcfg as [-> | ->]; simpl; [done |].
  by rewrite orb_true_r.
Qed.

(** The configured path, case by case on what the exchange yields. *)
Lemma send_to_logger_hub_post e w collection data :
  configured e = true ->
  let r := hub_request e collection data in
  let '(res, d) := http_exchange e (sent w) r in
  let w1 := after_exchange r d w in
  send_to_logger_hub collection data e w =
    match res with
    | Return status =>
        if (status =? 200)%Z then
          (Return true,
           log_debug ("Logger Hub: sent log to collection '"
                        +:+ collection +:+ "'") w1)
        else
          (Return false,
           log_debug ("Logger Hub: failed with status " +:+ pretty status) w1)
    | Raise ex =>
        if isinstance ex TimeoutError then
          (Return false, log_debug "Logger Hub: request timed out" w1)
        else if isinstance ex Exception then
          (Return false,
           log_debug ("Logger Hub: send failed - " +:+ exn_msg ex) w1)
        else (Raise ex, w1)
    end.
Proof.
  unfold configured. intros [Hep Hkey]%andb_true_iff. simpl.
  destruct (http_exchange e (sent w) (hub_request e collection data))
    as [res d] eqn:Hex.
  unfold send_to_logger_hub, settings_get, mbind, M_bind.
  fold (endpoint_of e) (api_key_of e). rewrite Hep, Hkey. simpl.
  unfold try_except, session_post.
  fold (hub_request e collection data). rewrite Hex.
  destruct res as [status | ex]; simpl.
  - by destruct (status =? 200)%Z.
  - destruct (isinstance ex TimeoutError); [done |].
    by destruct (isinstance ex Exception).
Qed.

Lemma http_exchange_raise e history r ex d :
  transport_errors_only e ->
  http_exchange e history r = (Raise ex, d) ->
  isinstance ex Exception = true.
Proof.
  intros Herr. unfold http_exchange.
  destruct (transport e history r) as [dl st | | ex'] eqn:Ht.
  - destruct (dl <=? req_timeout r * 1000)%N; [done |]. by intros [= <- _].
  - by intros [= <- _].
  - intros [= <- _]. by eapply Herr.
Qed.

(** Case analysis on a run of the delivery function: not configured, or
    configured with each result of the exchange and each branch taken on
    it.  [Hrun] describes the run in every case. *)
Ltac delivery_cases e w collection data Hrun :=
  let Hcfg := fresh "Hcfg" in
  let Hex := fresh "Hex" in
  let st := fresh "status" in
  let x := fresh "ex" in
  let dl := fresh "d" in
  destruct (configured e) eqn:Hcfg;
  [ pose proof (send_to_logger_hub_post e w collection data Hcfg) as Hrun;
    simpl in Hrun;
    destruct (http_exchange e (sent w) (hub_request e collection data))
      as [[st | x] dl] eqn:Hex;
    [ destruct (st =? 200)%Z eqn:?Hstatus
    | destruct (isinstance x TimeoutError) eqn:?Htimeout;
      [ | destruct (isinstance x Exception) eqn:?Hcls ] ]
  | pose proof (send_to_logger_hub_skip e w collection data Hcfg) as Hrun ].

Lemma not_exception_not_timeout ex :
  isinstance ex Exception = false -> isinstance ex TimeoutError = false.
Proof. destruct ex as [[] msg]; by cbv. Qed.

(** Only what is not an error leaves the delivery function. *)
Lemma send_to_logger_hub_raise e w collection data ex w' :
  send_to_logger_hub collection data e w = (Raise ex, w') ->
  isinstance ex Exception = false.
Proof.
  intros Hs.
  delivery_cases e w collection data Hrun; rewrite Hrun in Hs;
    simpl in Hs; try discriminate.
  by injection Hs as <- _.
Qed.

Lemma discard_world {A : Type} (r : outcome A * world) : (discard r).2 = r.2.
Proof. by destruct r as [[?|?] ?]. Qed.

Lemma discard_raise {A : Type} (r : outcome A * world) ex w' :
  discard r = (Raise ex, w') -> r = (Raise ex, w').
Proof. destruct r as [[?|?] ?]; simpl; [done | by intros [= -> ->]]. Qed.

(** At most one request goes out per call, and it is [hub_request]. *)
Lemma send_to_logger_hub_sent e w collection data :
  sent (send_to_logger_hub collection data e w).2
  = (sent w ++ if configured e then [hub_request e collection data] else [])%list.
Proof.
  destruct (configured e) eqn:Hcfg.
  - pose proof (send_to_logger_hub_post e w collection data Hcfg) as Hrun.
    simpl in Hrun.
    destruct (http_exchange e (sent w) (hub_request e collection data))
      as [[status | ex] d].
    + rewrite Hrun. by destruct (status =? 200)%Z.
    + rewrite Hrun. destruct (isinstance ex TimeoutError); [done |].
      by destruct (isinstance ex Exception).
  - rewrite send_to_logger_hub_skip by done. simpl. by rewrite app_nil_r.
Qed.

(** Errors never leave the delivery function. *)
Lemma send_to_logger_hub_returns e w collection data :
  transport_errors_only e ->
  ∃ b w', send_to_logger_hub collection data e w = (Return b, w').
Proof.
  intros Herr. destruct (configured e) eqn:Hcfg.
  - pose proof (send_to_logger_hub_post e w collection data Hcfg) as Hrun.
    simpl in Hrun.
    destruct (http_exchange e (sent w) (hub_request e collection data))
      as [[status | ex] d] eqn:Hex.
    + rewrite Hrun. destruct (status =? 200)%Z; by eexists _, _.
    + rewrite Hrun, (http_exchange_raise _ _ _ _ _ Herr Hex).
      destruct (isinstance ex TimeoutError); by eexists _, _.
  - rewrite send_to_logger_hub_skip by done. by eexists _, _.
Qed.

(** C1: the delivery function reports success exactly when the HTTP POST
    yields status 200; on any other status, on timeout and on any other
    transport or runtime error it returns the failure value and raises
    nothing. *)
Theorem send_to_logger_hub_reports e w collection data :
  transport_errors_only e ->
  ∃ b w', send_to_logger_hub collection data e w = (Return b, w')
    ∧ (b = true ↔
         configured e = true
         ∧ (http_exchange e (sent w) (hub_request e collection data)).1
           = Return 200%Z).
Proof.
  intros Herr. destruct (configured e) eqn:Hcfg.
  - pose proof (send_to_logger_hub_post e w collection data Hcfg) as Hrun.
    simpl in Hrun.
    destruct (http_exchange e (sent w) (hub_request e collection data))
      as [[status | ex] d] eqn:Hex; simpl.
    + destruct (status =? 200)%Z eqn:Hst; eexists _, _; (split; [exact Hrun |]).
      * apply Z.eqb_eq in Hst as ->. done.
      * apply Z.eqb_neq in Hst. split; [done |]. intros [_ [= ->]]. done.
    + pose proof (http_exchange_raise _ _ _ _ _ Herr Hex) as Hcls.
      rewrite Hcls in Hrun.
      destruct (isinstance ex TimeoutError);
        eexists _, _; (split; [exact Hrun |]); split; try done;
        by intros [_ ?].
  - rewrite send_to_logger_hub_skip by done.
    eexists _, _. split; [reflexivity |]. split; [done | by intros [? _]].
Qed.

Lemma send_to_logger_hub_reports_witness :
  transport_errors_only env_refused
  ∧ ∃ b w',
      send_to_logger_hub "ai_logs" sample_record env_refused world_init
      = (Return b, w')
      ∧ (b = true ↔
           configured env_refused = true
           ∧ (http_exchange env_refused (sent world_init)
                (hub_request env_refused "ai_logs" sample_record)).1
             = Return 200%Z).
Proof.
  assert (transport_errors_only env_refused) as Herr.
  { intros history r ex Hfail. simpl in Hfail.
    injection Hfail as <-. reflexivity. }
  split; [exact Herr |].
  exact (send_to_logger_hub_reports env_refused world_init "ai_logs"
           sample_record Herr).
Defined.

(** C2: if the endpoint or the API key is empty or missing, the delivery
    function performs no network activity and returns failure. *)
Theorem send_to_logger_hub_unconfigured e w collection data :
  setting_absent e "LOGGER_HUB.ENDPOINT" ∨ setting_absent e "LOGGER_HUB.API_KEY" ->
  ∃ w', send_to_logger_hub collection data e w = (Return false, w')
    ∧ sent w' = sent w
    ∧ elapsed_ms w' = elapsed_ms w
    ∧ pending w' = pending w.
Proof.
  intros Habs.
  assert (configured e = false) as Hcfg.
  { unfold configured, endpoint_of, api_key_of.
    destruct Habs as [H | H]; rewrite (setting_absent_falsy _ _ H); [done |].
    apply andb_false_r. }
  rewrite send_to_logger_hub_skip by done. by eexists.
Qed.

Lemma send_to_logger_hub_unconfigured_witness :
  (setting_absent env_unconfigured "LOGGER_HUB.ENDPOINT"
   ∨ setting_absent env_unconfigured "LOGGER_HUB.API_KEY")
  ∧ ∃ w',
      send_to_logger_hub "ai_logs" sample_record env_unconfigured world_init
      = (Return false, w')
      ∧ sent w' = sent world_init
      ∧ elapsed_ms w' = elapsed_ms world_init
      ∧ pending w' = pending world_init.
Proof.
  assert (setting_absent env_unconfigured "LOGGER_HUB.ENDPOINT"
          ∨ setting_absent env_unconfigured "LOGGER_HUB.API_KEY") as Habs.
  { left. left. reflexivity. }
  split; [exact Habs |].
  exact (send_to_logger_hub_unconfigured env_unconfigured world_init
           "ai_logs" sample_record Habs).
Defined.

(** C5: a request issued by the delivery function is an HTTP POST to
    {ENDPOINT}/log with headers Content-Type: application/json and
    x-api-key: {API_KEY}, whose JSON body is an object with exactly the
    keys collection (the collection name) and data (the record). *)
Theorem send_to_logger_hub_wire e w collection data r :
  r ∈ issued_between w (send_to_logger_hub collection data e w).2 ->
  req_method r = "POST"
  ∧ req_url r = endpoint_of e +:+ "/log"
  ∧ req_headers r = <["Content-Type" := "application/json"]>
                      (<["x-api-key" := api_key_of e]> ∅)
  ∧ ∃ body, req_json r = VDict body
      ∧ dom body = {[ "collection"; "data" ]}
      ∧ body !! "collection" = Some (VStr collection)
      ∧ body !! "data" = Some (VDict data).
Proof.
  unfold issued_between. rewrite send_to_logger_hub_sent, drop_app_length.
  destruct (configured e); [| by intros ?%elem_of_nil].
  intros ->%list_elem_of_singleton. simpl.
  split; [done |]. split; [done |]. split.
  - by apply insert_insert_ne.
  - eexists. split; [reflexivity |]. split; [| split].
    + rewrite !dom_insert_L. set_solver.
    + by rewrite lookup_insert_ne, lookup_insert_eq.
    + by rewrite lookup_insert_eq.
Qed.

Lemma send_to_logger_hub_wire_witness :
  let r := hub_request env_idle "ai_logs" sample_record in
  r ∈ issued_between world_init
        (send_to_logger_hub "ai_logs" sample_record env_idle world_init).2
  ∧ req_method r = "POST"
  ∧ req_url r = "http://hub.local/log"
  ∧ req_headers r = <["Content-Type" := "application/json"]>
                      (<["x-api-key" := "secret"]> ∅)
  ∧ ∃ body, req_json r = VDict body
      ∧ dom body = {[ "collection"; "data" ]}
      ∧ body !! "collection" = Some (VStr "ai_logs")
      ∧ body !! "data" = Some (VDict sample_record).
Proof.
  intros r.
  assert (r ∈ issued_between world_init
            (send_to_logger_hub "ai_logs" sample_record env_idle
               world_init).2) as Hin.
  { vm_compute. constructor. }
  split; [exact Hin |].
  exact (send_to_logger_hub_wire env_idle world_init "ai_logs"
           sample_record r Hin).
Defined.

(** C7: when the remote endpoint never responds, the delivery function
    still terminates: it returns failure, raises nothing, and has waited
    for the fixed timeout of 5 seconds. *)
Theorem send_to_logger_hub_timeout e w collection data :
  configured e = true ->
  (∀ history r, transport e history r = NeverResponds) ->
  ∃ w', send_to_logger_hub collection data e w = (Return false, w')
    ∧ elapsed_ms w' = (elapsed_ms w + 5000)%N.
Proof.
  intros Hcfg Hsilent.
  pose proof (send_to_logger_hub_post e w collection data Hcfg) as Hrun.
  simpl in Hrun. unfold http_exchange in Hrun. rewrite Hsilent in Hrun.
  simpl in Hrun. eexists. split; [exact Hrun | reflexivity].
Qed.

Lemma send_to_logger_hub_timeout_witness :
  configured env_silent = true
  ∧ (∀ history r, transport env_silent history r = NeverResponds)
  ∧ ∃ w',
      send_to_logger_hub "ai_logs" sample_record env_silent world_busy
      = (Return false, w')
      ∧ elapsed_ms w' = 5040%N.
Proof.
  split; [reflexivity |]. split; [intros; reflexivity |].
  apply (send_to_logger_hub_timeout env_silent world_busy "ai_logs"
           sample_record).
  - reflexivity.
  - intros; reflexivity.
Defined.

(** ** log_ai_request_sync *)


Lemma not_exception_not_runtime_error ex :
  isinstance ex Exception = false -> isinstance ex RuntimeError = false.
Proof.
  intros Hcls. destruct (isinstance ex RuntimeError) eqn:Hrt; [| done].
  apply runtime_error_is_exception in Hrt. unfold isinstance in Hcls.
  congruence.
Qed.


(** The delivery as lived by a coroutine abandoned at its wait: the
    request is handed over and the coroutine is closed there; without
    settings the coroutine never waits and ends as usual. *)
Lemma send_to_logger_hub_abandoned e w collection data :
  send_to_logger_hub collection data (abandoned_at_await e) w
  = if configured e then
      (Raise (mk_exn GeneratorExit ""),
       after_exchange (hub_request e collection data) 0 w)
    else
      (Return false, log_debug "Logger Hub not configured, skipping log" w).
Proof.
  destruct (configured e) eqn:Hcfg.
  - exact (send_to_logger_hub_post (abandoned_at_await e) w collection data
             Hcfg).
  - exact (send_to_logger_hub_skip (abandoned_at_await e) w collection data
             Hcfg).
Qed.

(** The body of the wrapper's [try] statement and its two [except]
    clauses, as they stand in [log_ai_request_sync]. *)
Local Abbreviation try_body collection data :=
  (lp ← get_event_loop;
   if is_running lp then
     create_task (SendToLoggerHub collection data)
   else
     run_until_complete (SendToLoggerHub collection data);;
     mret tt).

Local Abbreviation except_clauses collection data :=
  [ (RuntimeError, fun _ : exn =>
       asyncio_run (SendToLoggerHub collection data);;
       mret tt);
    (Exception, fun ex : exn =>
       debug ("Logger Hub: sync wrapper failed - " +:+ exn_msg ex)) ].

(** What the [try] body does, context by context. *)
Lemma try_body_result e w collection data :
  try_body collection data e w =
  match scheduler_fault e with
  | Some ex => (Raise ex, w)
  | None =>
      if loop_running e then
        (Return tt, enqueue (SendToLoggerHub collection data) w)
      else
        match loop_stop e with
        | None => discard (send_to_logger_hub collection data e w)
        | Some ex =>
            match send_to_logger_hub collection data (abandoned_at_await e) w
            with
            | (Return _, w1) => (Return tt, w1)
            | (Raise _, w1) => (Raise ex, w1)
            end
        end
  end.
Proof.
  unfold scheduler_fault, loop_running, get_event_loop, mbind, M_bind.
  destruct (event_loop e) as [lp | ex]; [| done].
  destruct (is_running lp).
  - unfold create_task. by destruct (create_task_fault e).
  - unfold run_until_complete.
    destruct (run_until_complete_fault e); [done |].
    destruct (loop_stop e); simpl.
    + by destruct (send_to_logger_hub collection data (abandoned_at_await e) w)
        as [[?|?] ?].
    + unfold discard.
      by destruct (send_to_logger_hub collection data e w) as [[?|?] ?].
Qed.

(** What the [except] clauses do with an exception of the body. *)
Lemma except_clauses_path e w0 collection data ex :
  match find_handler ex (except_clauses collection data) with
  | Some h => h ex e w0
  | None => (Raise ex, w0)
  end = except_path collection data ex e w0.
Proof.
  unfold except_path. simpl. destruct (isinstance ex RuntimeError).
  - unfold mbind, M_bind, discard.
    by destruct (asyncio_run (SendToLoggerHub collection data) e w0)
      as [[?|?] ?].
  - by destruct (isinstance ex Exception).
Qed.

(** What is not an error passes both clauses. *)
Lemma except_path_passes e w0 collection data ex :
  isinstance ex Exception = false ->
  except_path collection data ex e w0 = (Raise ex, w0).
Proof.
  intros Hcls. unfold except_path.
  by rewrite (not_exception_not_runtime_error _ Hcls), Hcls.
Qed.

(** The wrapper, path by path. *)
Lemma log_ai_request_sync_cases e w collection data :
  log_ai_request_sync collection data e w =
  match scheduler_fault e with
  | Some ex => except_path collection data ex e w
  | None =>
      if loop_running e then
        (Return tt, enqueue (SendToLoggerHub collection data) w)
      else
        match loop_stop e with
        | None => discard (send_to_logger_hub collection data e w)
        | Some ex =>
            if configured e then
              except_path collection data ex e
                (after_exchange (hub_request e collection data) 0 w)
            else
              (Return tt,
               log_debug "Logger Hub not configured, skipping log" w)
        end
  end.
Proof.
  unfold log_ai_request_sync, try_except.
  rewrite (try_body_result e w collection data).
  destruct (scheduler_fault e) as [ex |].
  - apply except_clauses_path.
  - destruct (loop_running e); [done |].
    destruct (loop_stop e) as [ex |].
    + rewrite send_to_logger_hub_abandoned.
      destruct (configured e); [apply except_clauses_path | done].
    + destruct (send_to_logger_hub collection data e w) as [[b | ex] w1] eqn:Hs;
        [done |].
      cbn [discard]. rewrite except_clauses_path.
      apply except_path_passes. by eapply send_to_logger_hub_raise.
Qed.


Lemma idle_scheduler_cases e :
  idle_scheduler e ->
  scheduler_fault e = None ∧ loop_running e = false ∧ loop_stop e = None.
Proof.
  intros (lp & Hlp & Hrun & Hok & Hstop). unfold scheduler_fault, loop_running.
  by rewrite Hlp, Hrun.
Qed.


(** Under an idle loop that can be driven the wrapper is the delivery
    function with its result discarded; an exception that is not an
    [Exception] passes through both [except] clauses. *)
Lemma log_ai_request_sync_inline e w collection data :
  idle_scheduler e ->
  log_ai_request_sync collection data e w
  = match send_to_logger_hub collection data e w with
    | (Return _, w') => (Return tt, w')
    | (Raise ex, w') => (Raise ex, w')
    end.
Proof.
  intros (Hfault & Hrun & Hstop)%idle_scheduler_cases.
  by rewrite log_ai_request_sync_cases, Hfault, Hrun, Hstop.
Qed.

(** The fallback: once scheduler acquisition has failed with a
    [RuntimeError], the wrapper is exactly [asyncio.run] of the delivery
    coroutine, with nothing around it. *)
Lemma log_ai_request_sync_fallback e w collection data :
  scheduler_unavailable e ->
  log_ai_request_sync collection data e w
  = match asyncio_run (SendToLoggerHub collection data) e w with
    | (Return _, w') => (Return tt, w')
    | (Raise ex, w') => (Raise ex, w')
    end.
Proof.
  intros (ex & Hlp & Hcls).
  rewrite log_ai_request_sync_cases. unfold scheduler_fault.
  rewrite Hlp. unfold except_path. by rewrite Hcls.
Qed.





(** When the scheduler cannot be acquired and the fallback works, the
    delivery also runs to completion before the wrapper returns. *)
Lemma log_ai_request_sync_fallback_inline e w collection data :
  scheduler_unavailable e ->
  asyncio_run_fault e = None ->
  (log_ai_request_sync collection data e w).2
  = (send_to_logger_hub collection data e w).2.
Proof.
  intros Hun Hok. rewrite log_ai_request_sync_fallback by done.
  unfold asyncio_run. rewrite Hok. simpl.
  by destruct (send_to_logger_hub collection data e w) as [[?|?] ?].
Qed.




(** What the wrapper does guarantee: as long as only errors (instances
    of [Exception]) occur and the fallback [asyncio.run] itself does not
    fail, every branch ends without raising. *)
Lemma log_ai_request_sync_quiet e w collection data :
  transport_errors_only e ->
  (∀ ex, event_loop e = Raise ex -> isinstance ex Exception = true) ->
  (∀ ex, create_task_fault e = Some ex -> isinstance ex Exception = true) ->
  (∀ ex, run_until_complete_fault e = Some ex ->
         isinstance ex Exception = true) ->
  (∀ ex, loop_stop e = Some ex -> isinstance ex Exception = true) ->
  asyncio_run_fault e = None ->
  ∃ w', log_ai_request_sync collection data e w = (Return tt, w').
Proof.
  intros Herr Hloop Htask Hdrive Hstop Hrun.
  assert (∀ ex w0, isinstance ex Exception = true ->
    ∃ w1, except_path collection data ex e w0 = (Return tt, w1)) as Hcaught.
  { intros ex w0 Hex. unfold except_path.
    destruct (isinstance ex RuntimeError).
    - unfold asyncio_run. rewrite Hrun. simpl.
      destruct (send_to_logger_hub_returns e w0 collection data Herr)
        as (b & w1 & ->). by eexists.
    - rewrite Hex. by eexists. }
  rewrite log_ai_request_sync_cases.
  destruct (scheduler_fault e) as [ex |] eqn:Hfault.
  - apply Hcaught. unfold scheduler_fault in Hfault.
    destruct (event_loop e) as [lp | ex0]; [| injection Hfault as ->; eauto].
    destruct (is_running lp); eauto.
  - destruct (loop_running e); [by eexists |].
    destruct (loop_stop e) as [ex |] eqn:Hs.
    + destruct (configured e); [apply Hcaught; eauto | by eexists].
    + destruct (send_to_logger_hub_returns e w collection data Herr)
        as (b & w1 & ->). by eexists.
Qed.

(** C4: the wrapper is meant never to raise, even when the fallback
    scheduling strategy itself fails.  The code does not achieve this:
    the fallback runs inside the [except RuntimeError] clause, out of
    reach of the sibling [except Exception] clause, so its failure goes
    straight to the caller and no diagnostic is written. *)
Theorem log_ai_request_sync_fallback_escapes w collection data :
  log_ai_request_sync collection data env_fallback_fails w
  = (Raise (mk_exn OSError "[Errno 24] Too many open files"), w).
Proof. reflexivity. Qed.

(** * Further properties *)

(** ** build_ai_log_data: what the record holds *)

Lemma set_if_not_none_stored key o (data : gmap string pyval) :
  data !! key = None ->
  set_if_not_none key (default VNone o) data !! key = stored o.
Proof.
  intros Hfresh. rewrite lookup_set_if_not_none_eq, Hfresh.
  by destruct o as [[] |].
Qed.

Lemma dom_set_if_not_none key x (data : gmap string pyval) (K : gset string) :
  key ∈ K -> dom data ⊆ K -> dom (set_if_not_none key x data) ⊆ K.
Proof.
  intros Hkey Hdom. unfold set_if_not_none. destruct (is_not_none x).
  - rewrite dom_insert_L. apply union_least; [| done].
    by apply singleton_subseteq_l.
  - done.
Qed.

Lemma default_drop_null o : default VNone (drop_null o) = default VNone o.
Proof. by destruct o as [[] |]. Qed.

(** X1: the record stores its arguments unchanged.  The three prompts
    and model are stored as passed, whatever they are; status is stored
    as passed (also when it is [None] or not one of "success" and
    "error") and is "success" only when left out; timestamp is the clock
    reading; and each optional key, when present, holds exactly the value
    the caller passed. *)
Theorem build_ai_log_data_values c e w :
  ∃ data, build_ai_log_data c e w = (Return data, w)
    ∧ data !! "model" = Some (arg_model c)
    ∧ data !! "system_prompt" = Some (arg_system_prompt c)
    ∧ data !! "user_prompt" = Some (arg_user_prompt c)
    ∧ data !! "status" = Some (default (VStr "success") (arg_status c))
    ∧ data !! "timestamp" = Some (VFloat (wall_clock e))
    ∧ data !! "response" = stored (arg_response c)
    ∧ data !! "finish_reason" = stored (arg_finish_reason c)
    ∧ data !! "usage" = stored (arg_usage c)
    ∧ data !! "error" = stored (arg_error c)
    ∧ data !! "latency_ms" = stored (arg_latency_ms c)
    ∧ data !! "pr_url" = stored (arg_pr_url c)
    ∧ data !! "command" = stored (arg_command c)
    ∧ data !! "extra" = stored (arg_extra c).
Proof.
  run_builder.
  repeat split; skip_guards; try reflexivity.
  all: apply set_if_not_none_stored; skip_guards; reflexivity.
Qed.

Lemma build_ai_log_data_values_witness :
  ∃ data, build_ai_log_data null_call env_idle world_init
          = (Return data, world_init)
    ∧ data !! "status" = Some (VStr "error")
    ∧ data !! "response" = Some (VStr "ok")
    ∧ data !! "finish_reason" = None
    ∧ data !! "error" = None
    ∧ data !! "latency_ms" = Some (VInt 1200).
Proof.
  destruct (build_ai_log_data_values null_call env_idle world_init)
    as (data & Hrun & _ & _ & _ & Hst & _ & Hresp & Hfin & _ & Herr & Hlat & _).
  exists data. repeat split; assumption.
Defined.

(** X2: the record never carries a key outside the thirteen field
    names, whatever values are passed: nested dictionaries given as
    usage or extra are stored under their own key and not merged into
    the record. *)
Theorem build_ai_log_data_key_bound c e w :
  ∃ data, build_ai_log_data c e w = (Return data, w)
    ∧ dom data ⊆ record_keys.
Proof.
  run_builder. unfold record_keys.
  repeat (apply dom_set_if_not_none; [set_unfold; tauto |]).
  rewrite !dom_insert_L, dom_empty_L. set_unfold. tauto.
Qed.

(** X3: passing [None] explicitly for an optional argument is the same
    as leaving it out: the call returns the same record. *)
Theorem build_ai_log_data_explicit_none c e w :
  build_ai_log_data (omit_nulls c) e w = build_ai_log_data c e w.
Proof.
  unfold build_ai_log_data, time_time, mbind, M_bind, mret, M_ret.
  cbn [omit_nulls arg_model arg_system_prompt arg_user_prompt arg_response
       arg_finish_reason arg_usage arg_status arg_error arg_latency_ms
       arg_pr_url arg_command arg_extra].
  by rewrite !default_drop_null.
Qed.

(** ** send_to_logger_hub: requests, waiting and diagnostics *)

(** X4: one call makes at most one request: exactly one when both
    settings are present, whatever the collector then does (no retry
    after a failure), and none otherwise; requests made earlier are left
    as they were. *)
Theorem send_to_logger_hub_single_request e w collection data :
  let w' := (send_to_logger_hub collection data e w).2 in
  sent w' = (sent w ++ issued_between w w')%list
  ∧ length (issued_between w w') = if configured e then 1 else 0.
Proof.
  simpl. unfold issued_between.
  rewrite send_to_logger_hub_sent, drop_app_length.
  by destruct (configured e).
Qed.

(** X5: every request the delivery function issues carries the fixed
    total timeout [LOGGER_HUB_TIMEOUT] of 5 seconds, whatever the
    settings, the collection and the record. *)
Theorem send_to_logger_hub_request_timeout e w collection data r :
  r ∈ issued_between w (send_to_logger_hub collection data e w).2 ->
  req_timeout r = LOGGER_HUB_TIMEOUT ∧ req_timeout r = 5%N.
Proof.
  unfold issued_between. rewrite send_to_logger_hub_sent, drop_app_length.
  destruct (configured e); [| by intros ?%elem_of_nil].
  by intros ->%list_elem_of_singleton.
Qed.

Lemma send_to_logger_hub_request_timeout_witness :
  let r := hub_request env_silent "ai_logs" sample_record in
  r ∈ issued_between world_init
        (send_to_logger_hub "ai_logs" sample_record env_silent world_init).2
  ∧ req_timeout r = LOGGER_HUB_TIMEOUT
  ∧ req_timeout r = 5%N.
Proof.
  intros r.
  assert (r ∈ issued_between world_init
            (send_to_logger_hub "ai_logs" sample_record env_silent
               world_init).2) as Hin.
  { vm_compute. constructor. }
  split; [exact Hin |].
  exact (send_to_logger_hub_request_timeout env_silent world_init "ai_logs"
           sample_record r Hin).
Defined.

(** X6: every call that returns writes exactly one debug diagnostic,
    after the ones already written; a call that lets an exception
    through writes none. *)
Theorem send_to_logger_hub_one_diagnostic e w collection data :
  match send_to_logger_hub collection data e w with
  | (Return _, w') => ∃ msg, debug_log w' = (debug_log w ++ [msg])%list
  | (Raise _, w') => debug_log w' = debug_log w
  end.
Proof.
  delivery_cases e w collection data Hrun; rewrite Hrun; simpl;
    try done; by eexists.
Qed.

(** A collector answering 500: failure, and the status in the log. *)
Example send_to_logger_hub_server_error :
  let r := send_to_logger_hub "ai_logs" sample_record env_server_error
             world_init in
  r.1 = Return false
  ∧ debug_log r.2 = ["Logger Hub: failed with status 500"]
  ∧ elapsed_ms r.2 = 80%N.
Proof. repeat split; reflexivity. Qed.

(** X7: a timeout is reported as a timeout.  [asyncio.TimeoutError] is
    also an [Exception], but its clause comes first: the call returns
    failure and the diagnostic is "request timed out", not "send
    failed". *)
Theorem send_to_logger_hub_timeout_logged e w collection data ex :
  configured e = true ->
  (http_exchange e (sent w) (hub_request e collection data)).1 = Raise ex ->
  isinstance ex TimeoutError = true ->
  ∃ w', send_to_logger_hub collection data e w = (Return false, w')
    ∧ debug_log w' = (debug_log w ++ ["Logger Hub: request timed out"])%list.
Proof.
  intros Hconf Hraise Hto.
  pose proof (send_to_logger_hub_post e w collection data Hconf) as Hrun.
  simpl in Hrun.
  destruct (http_exchange e (sent w) (hub_request e collection data))
    as [res d].
  simpl in Hraise. subst res. rewrite Hto in Hrun.
  rewrite Hrun. eexists. split; [reflexivity | done].
Qed.

Lemma send_to_logger_hub_timeout_logged_witness :
  configured env_silent = true
  ∧ (http_exchange env_silent (sent world_init)
       (hub_request env_silent "ai_logs" sample_record)).1
    = Raise (mk_exn TimeoutError "")
  ∧ isinstance (mk_exn TimeoutError "") TimeoutError = true
  ∧ ∃ w',
      send_to_logger_hub "ai_logs" sample_record env_silent world_init
      = (Return false, w')
      ∧ debug_log w' = ["Logger Hub: request timed out"].
Proof.
  split; [reflexivity |]. split; [reflexivity |]. split; [reflexivity |].
  apply (send_to_logger_hub_timeout_logged env_silent world_init "ai_logs"
           sample_record (mk_exn TimeoutError "")); reflexivity.
Defined.

(** X8: the delivery function does not swallow what is not an error.
    If the exchange ends with an exception outside [Exception] (the task
    is cancelled, the user interrupts), the exception reaches the caller
    and no diagnostic is written. *)
Theorem send_to_logger_hub_cancellation e w collection data ex d :
  configured e = true ->
  http_exchange e (sent w) (hub_request e collection data) = (Raise ex, d) ->
  isinstance ex Exception = false ->
  ∃ w', send_to_logger_hub collection data e w = (Raise ex, w')
    ∧ debug_log w' = debug_log w.
Proof.
  intros Hconf Hraise Hcls.
  pose proof (send_to_logger_hub_post e w collection data Hconf) as Hrun.
  simpl in Hrun. rewrite Hraise in Hrun.
  rewrite (not_exception_not_timeout _ Hcls), Hcls in Hrun.
  rewrite Hrun. eexists. split; [reflexivity | done].
Qed.

Lemma send_to_logger_hub_cancellation_witness :
  configured env_cancelled = true
  ∧ http_exchange env_cancelled (sent world_init)
      (hub_request env_cancelled "ai_logs" sample_record)
    = (Raise (mk_exn CancelledError ""), 0%N)
  ∧ isinstance (mk_exn CancelledError "") Exception = false
  ∧ ∃ w',
      send_to_logger_hub "ai_logs" sample_record env_cancelled world_init
      = (Raise (mk_exn CancelledError ""), w')
      ∧ debug_log w' = debug_log world_init.
Proof.
  split; [reflexivity |]. split; [reflexivity |]. split; [reflexivity |].
  apply (send_to_logger_hub_cancellation env_cancelled world_init "ai_logs"
           sample_record (mk_exn CancelledError "") 0%N); reflexivity.
Defined.

(** ** log_ai_request_sync: every way through the wrapper *)

(** X9: a [RuntimeError] from the scheduler sends the wrapper to
    [asyncio.run].  If it struck before the delivery had started (no
    current loop, a closed loop, a loop refusing the task) and
    [asyncio.run] works, the wrapper is the delivery run to completion,
    its result discarded.  If instead the loop was stopped while the
    first delivery was waiting for its answer, that delivery is left
    unfinished with its request out and nothing logged, and the
    delivery is made a second time: the call issues the same request
    twice. *)
Theorem log_ai_request_sync_runtime_error_fallback e w collection data ex :
  isinstance ex RuntimeError = true ->
  asyncio_run_fault e = None ->
  (scheduler_fault e = Some ex ->
     log_ai_request_sync collection data e w
     = discard (send_to_logger_hub collection data e w))
  ∧ (scheduler_fault e = None -> loop_running e = false ->
     loop_stop e = Some ex -> configured e = true ->
     ∃ w1,
       sent w1 = (sent w ++ [hub_request e collection data])%list
       ∧ debug_log w1 = debug_log w
       ∧ pending w1 = pending w
       ∧ log_ai_request_sync collection data e w
         = discard (send_to_logger_hub collection data e w1)
       ∧ issued_between w (log_ai_request_sync collection data e w).2
         = [hub_request e collection data; hub_request e collection data]).
Proof.
  intros Hrt Hok. split.
  - intros Hfault. rewrite log_ai_request_sync_cases, Hfault.
    unfold except_path. rewrite Hrt. unfold asyncio_run. by rewrite Hok.
  - intros Hfault Hrun Hstop Hcfg.
    exists (after_exchange (hub_request e collection data) 0 w).
    assert (log_ai_request_sync collection data e w
            = discard (send_to_logger_hub collection data e
                         (after_exchange (hub_request e collection data) 0 w)))
      as Hlog.
    { rewrite log_ai_request_sync_cases, Hfault, Hrun, Hstop, Hcfg.
      unfold except_path. rewrite Hrt. unfold asyncio_run. by rewrite Hok. }
    split; [done |]. split; [done |]. split; [done |]. split; [exact Hlog |].
    rewrite Hlog, discard_world. unfold issued_between.
    rewrite send_to_logger_hub_sent, Hcfg. simpl.
    by rewrite <- app_assoc, drop_app_length.
Qed.

Lemma log_ai_request_sync_runtime_error_fallback_witness :
  (scheduler_fault env_closed_loop
   = Some (mk_exn RuntimeError "Event loop is closed")
   ∧ log_ai_request_sync "ai_logs" sample_record env_closed_loop world_init
     = discard
         (send_to_logger_hub "ai_logs" sample_record env_closed_loop
            world_init))
  ∧ (loop_stop env_loop_stopped
     = Some (mk_exn RuntimeError "Event loop stopped before Future completed.")
     ∧ issued_between world_init
         (log_ai_request_sync "ai_logs" sample_record env_loop_stopped
            world_init).2
       = [hub_request env_loop_stopped "ai_logs" sample_record;
          hub_request env_loop_stopped "ai_logs" sample_record]).
Proof.
  split.
  - split; [reflexivity |].
    exact (proj1 (log_ai_request_sync_runtime_error_fallback env_closed_loop
                    world_init "ai_logs" sample_record
                    (mk_exn RuntimeError "Event loop is closed")
                    eq_refl eq_refl) eq_refl).
  - split; [reflexivity |].
    destruct (proj2 (log_ai_request_sync_runtime_error_fallback
                       env_loop_stopped world_init "ai_logs" sample_record
                       (mk_exn RuntimeError
                          "Event loop stopped before Future completed.")
                       eq_refl eq_refl) eq_refl eq_refl eq_refl eq_refl)
      as (w1 & _ & _ & _ & _ & Hissued).
    exact Hissued.
Defined.





(** An exception leaves the [except] clauses in two ways only. *)
Lemma except_path_raise e w0 collection data ex0 ex w' :
  except_path collection data ex0 e w0 = (Raise ex, w') ->
  isinstance ex Exception = false
  ∨ (isinstance ex0 RuntimeError = true
     ∧ asyncio_run_fault e = Some ex
     ∧ w' = w0).
Proof.
  unfold except_path. destruct (isinstance ex0 RuntimeError) eqn:Hrt.
  - unfold asyncio_run. destruct (asyncio_run_fault e) as [ex1 |].
    + simpl. intros [= <- <-]. by right.
    + simpl. intros Hd%discard_raise. left.
      by eapply send_to_logger_hub_raise.
  - destruct (isinstance ex0 Exception) eqn:Hcls; [done |].
    intros [= <- <-]. by left.
Qed.

(** X12: the exceptions that can leave the wrapper are of two kinds
    only: those that are not errors (outside [Exception]), and whatever
    the fallback [asyncio.run] itself raises after the scheduler failed
    with a [RuntimeError].  In the latter case nothing was logged or
    queued; no request was made if the scheduler failed before the
    delivery started, and the one request of the unfinished first
    delivery is out if the loop was stopped while that delivery was
    waiting. *)
Theorem log_ai_request_sync_escapes e w collection data ex w' :
  log_ai_request_sync collection data e w = (Raise ex, w') ->
  isinstance ex Exception = false
  ∨ (asyncio_run_fault e = Some ex
     ∧ debug_log w' = debug_log w
     ∧ pending w' = pending w
     ∧ ∃ ex0, isinstance ex0 RuntimeError = true
         ∧ ((scheduler_fault e = Some ex0 ∧ sent w' = sent w)
            ∨ (scheduler_fault e = None ∧ loop_stop e = Some ex0
               ∧ sent w' = (sent w ++ [hub_request e collection data])%list))).
Proof.
  rewrite log_ai_request_sync_cases.
  destruct (scheduler_fault e) as [ex0 |] eqn:Hfault.
  - intros [Hcls | (Hrt & Hrun & ->)]%except_path_raise; [by left |].
    right. repeat split; try done. exists ex0. split; [done |]. by left.
  - destruct (loop_running e); [done |].
    destruct (loop_stop e) as [ex0 |] eqn:Hstop.
    + destruct (configured e); [| done].
      intros [Hcls | (Hrt & Hrun & ->)]%except_path_raise; [by left |].
      right. repeat split; try done. exists ex0. split; [done |]. by right.
    + intros Hd%discard_raise. left. by eapply send_to_logger_hub_raise.
Qed.

Lemma log_ai_request_sync_escapes_witness :
  log_ai_request_sync "ai_logs" sample_record env_fallback_fails world_init
  = (Raise (mk_exn OSError "[Errno 24] Too many open files"), world_init)
  ∧ (isinstance (mk_exn OSError "[Errno 24] Too many open files") Exception
     = false
     ∨ (asyncio_run_fault env_fallback_fails
        = Some (mk_exn OSError "[Errno 24] Too many open files")
        ∧ debug_log world_init = debug_log world_init
        ∧ pending world_init = pending world_init
        ∧ ∃ ex0, isinstance ex0 RuntimeError = true
            ∧ ((scheduler_fault env_fallback_fails = Some ex0
                ∧ sent world_init = sent world_init)
               ∨ (scheduler_fault env_fallback_fails = None
                  ∧ loop_stop env_fallback_fails = Some ex0
                  ∧ sent world_init
                    = (sent world_init
                       ++ [hub_request env_fallback_fails "ai_logs"
                             sample_record])%list)))).
Proof.
  split; [reflexivity |].
  apply (log_ai_request_sync_escapes env_fallback_fails world_init "ai_logs"
           sample_record). reflexivity.
Defined.

(** Without settings the [except] clauses make no request either. *)
Lemma except_path_unconfigured e w0 collection data ex :
  configured e = false ->
  sent (except_path collection data ex e w0).2 = sent w0
  ∧ elapsed_ms (except_path collection data ex e w0).2 = elapsed_ms w0.
Proof.
  intros Hcfg. unfold except_path. destruct (isinstance ex RuntimeError).
  - rewrite discard_world. unfold asyncio_run.
    destruct (asyncio_run_fault e); [done |]. simpl.
    by rewrite send_to_logger_hub_skip.
  - by destruct (isinstance ex Exception).
Qed.

(** X13: without Logger Hub settings the wrapper makes no request and
    waits for nothing in any calling context, whatever the scheduler
    does.  It does not look at the settings itself, though: under a
    running loop it still queues the task that will find them missing. *)
Theorem log_ai_request_sync_unconfigured e w collection data :
  configured e = false ->
  let w' := (log_ai_request_sync collection data e w).2 in
  sent w' = sent w
  ∧ elapsed_ms w' = elapsed_ms w
  ∧ (scheduler_fault e = None -> loop_running e = true ->
     pending w' = (pending w ++ [SendToLoggerHub collection data])%list).
Proof.
  intros Hcfg. simpl. rewrite log_ai_request_sync_cases.
  pose proof (send_to_logger_hub_skip e w collection data Hcfg) as Hskip.
  destruct (scheduler_fault e) as [ex |].
  - destruct (except_path_unconfigured e w collection data ex Hcfg)
      as [-> ->]. done.
  - destruct (loop_running e); [done |].
    destruct (loop_stop e); rewrite ?Hcfg, ?discard_world, ?Hskip; done.
Qed.

Lemma log_ai_request_sync_unconfigured_witness :
  configured env_running_unconfigured = false
  ∧ scheduler_fault env_running_unconfigured = None
  ∧ loop_running env_running_unconfigured = true
  ∧ sent (log_ai_request_sync "ai_logs" sample_record
            env_running_unconfigured world_init).2 = []
  ∧ pending (log_ai_request_sync "ai_logs" sample_record
               env_running_unconfigured world_init).2
    = [SendToLoggerHub "ai_logs" sample_record].
Proof.
  split; [reflexivity |]. split; [reflexivity |]. split; [reflexivity |].
  pose proof (log_ai_request_sync_unconfigured env_running_unconfigured
                world_init "ai_logs" sample_record eq_refl) as H.
  split; [exact (proj1 H) |].
  exact (proj2 (proj2 H) eq_refl eq_refl).
Defined.

(** ** Building and sending *)

(** X14: the record reaches the wire as it was built.  When a caller
    with an idle event loop and Logger Hub settings builds a record and
    hands it to the wrapper, exactly one request goes out and the value
    under "data" in its body is the record [build_ai_log_data] returned,
    timestamp included: nothing is added, removed or re-stamped on the
    way. *)
Theorem log_built_record e w collection c :
  idle_scheduler e ->
  configured e = true ->
  ∃ data r body,
    build_ai_log_data c e w = (Return data, w)
    ∧ issued_between w
        ((build_ai_log_data c ≫= log_ai_request_sync collection) e w).2
      = [r]
    ∧ req_json r = VDict body
    ∧ body !! "data" = Some (VDict data)
    ∧ data !! "timestamp" = Some (VFloat (wall_clock e)).
Proof.
  intros Hidle Hcfg.
  destruct (build_ai_log_data_required c e w)
    as (data & Hbuild & _ & _ & _ & _ & Hts).
  exists data, (hub_request e collection data). eexists.
  split; [exact Hbuild |].
  rewrite (bind_return _ _ _ _ _ _ Hbuild).
  rewrite log_ai_request_sync_inline by done.
  fold (discard (send_to_logger_hub collection data e w)).
  rewrite discard_world. unfold issued_between.
  rewrite send_to_logger_hub_sent, drop_app_length, Hcfg.
  split; [done |]. split; [reflexivity |].
  split; [by rewrite lookup_insert_eq | exact Hts].
Qed.

Lemma log_built_record_witness :
  idle_scheduler env_idle
  ∧ configured env_idle = true
  ∧ ∃ data r body,
      build_ai_log_data example_call env_idle world_init
      = (Return data, world_init)
      ∧ issued_between world_init
          ((build_ai_log_data example_call
              ≫= log_ai_request_sync "ai_logs") env_idle world_init).2
        = [r]
      ∧ req_json r = VDict body
      ∧ body !! "data" = Some (VDict data)
      ∧ data !! "timestamp" = Some (VFloat (wall_clock env_idle)).
Proof.
  assert (idle_scheduler env_idle) as Hidle.
  { exists (mk_loop false). repeat split; reflexivity. }
  split; [exact Hidle |]. split; [reflexivity |].
  exact (log_built_record env_idle world_init "ai_logs" example_call
           Hidle eq_refl).
Defined.

End LoggerHub.
